(** * The RSS feed endpoint of the blog: src/pages/feed/blog.xml.js

    The endpoint is sixteen lines of JavaScript.  Two module-level
    constants are evaluated once, when the module is loaded:

      const postImportResult = import.meta.glob("../blog/*.md", { eager: true });
      const posts = Object.values(postImportResult);

    and the exported handler [get] maps [posts] to feed items and hands
    a feed descriptor to the serializer [rss] of the package
    @astrojs/rss.

    The embedding keeps JavaScript's object identity: objects and arrays
    live in a heap, values hold references to them, and every
    evaluation step is a function from heap to completion and heap.
    What a caller can observe of a value is its [snapshot], the tree
    reachable from it. *)

From Stdlib Require Import ZArith NArith Ascii DecimalString.
From stdpp Require Import base list strings.

Open Scope string_scope.
Open Scope list_scope.

(** ** JavaScript values, heap and completions *)

Module JS.

Abbreviation loc := nat.

(** Primitive values are held directly, objects and arrays by
    reference.  Numbers are restricted to integers: the endpoint never
    inspects one. *)
Inductive value : Type :=
  | VUndefined
  | VNull
  | VBool (b : bool)
  | VNum (n : Z)
  | VStr (s : string)
  | VRef (l : loc).

(** An ordinary object is its own properties in creation order, an
    array is its (dense) element list. *)
Inductive cell : Type :=
  | Obj (props : list (string * value))
  | Arr (elems : list value).

Abbreviation heap := (list cell).

(** [BadRef] is not a JavaScript error: it marks the dereference of a
    location outside the heap, which no JavaScript program can hold. *)
Inductive exn : Type := TypeError | BadRef.

Inductive completion (A : Type) : Type :=
  | Normal (a : A)
  | Throw (e : exn).
Arguments Normal {A} a.
Arguments Throw {A} e.

(** Evaluation threads the heap; what was allocated before a throw
    stays allocated. *)
Definition M (A : Type) : Type := heap -> completion A * heap.

Definition ret {A} (a : A) : M A := fun h => (Normal a, h).

Definition throw {A} (e : exn) : M A := fun h => (Throw e, h).

Definition bind {A B} (m : M A) (f : A -> M B) : M B :=
  fun h =>
    match m h with
    | (Normal a, h') => f a h'
    | (Throw e, h') => (Throw e, h')
    end.

Notation "'let*' x ':=' m 'in' k" := (bind m (fun x => k))
  (at level 10, x name, m at level 100, k at level 200, only parsing).

(** *** Reading *)

Definition lookup_prop (k : string) (props : list (string * value)) : value :=
  match List.find (fun p => String.eqb (fst p) k) props with
  | Some p => snd p
  | None => VUndefined
  end.

(** [v.k] for a property name [k] that no built-in prototype and no
    exotic object defines, which holds of every name the endpoint
    reads: url, frontmatter, title, publishedAt, SITE.  Reading such a
    name off a primitive or an array gives undefined; off undefined or
    null it throws. *)
Definition read_prop (h : heap) (v : value) (k : string) : completion value :=
  match v with
  | VUndefined | VNull => Throw TypeError
  | VBool _ | VNum _ | VStr _ => Normal VUndefined
  | VRef l =>
      match h !! l with
      | Some (Obj props) => Normal (lookup_prop k props)
      | Some (Arr _) => Normal VUndefined
      | None => Throw BadRef
      end
  end.

Definition get_prop (v : value) (k : string) : M value :=
  fun h => (read_prop h v k, h).

(** *** Allocation *)

(** A new object or array takes the next free location.  Locations are
    not observable in JavaScript, so only freshness matters. *)
Definition alloc (c : cell) : M value :=
  fun h => (Normal (VRef (List.length h)), h ++ [c]).

(** *** Object literals with computed keys *)

(** Defining a property that already exists replaces its value and
    keeps its place. *)
Fixpoint define_prop (k : string) (v : value) (props : list (string * value))
  : list (string * value) :=
  match props with
  | [] => [(k, v)]
  | (k', v') :: props' =>
      if String.eqb k' k then (k', v) :: props'
      else (k', v') :: define_prop k v props'
  end.

(** *** Object.values *)

(** An array index is the canonical decimal spelling of an integer
    below 2^32 - 1. *)
Definition array_index (k : string) : option N :=
  match NilZero.uint_of_string k with
  | Some u =>
      let n := N.of_uint u in
      if String.eqb (NilZero.string_of_uint (N.to_uint n)) k && (n <? 4294967295)%N
      then Some n else None
  | None => None
  end.

Fixpoint insert_by_index (p : N * value) (l : list (N * value)) : list (N * value) :=
  match l with
  | [] => [p]
  | q :: l' =>
      if (fst p <? fst q)%N then p :: q :: l' else q :: insert_by_index p l'
  end.

Fixpoint indexed_props (props : list (string * value)) : list (N * value) :=
  match props with
  | [] => []
  | (k, v) :: props' =>
      match array_index k with
      | Some n => insert_by_index (n, v) (indexed_props props')
      | None => indexed_props props'
      end
  end.

Definition named_props (props : list (string * value)) : list (string * value) :=
  List.filter (fun p => negb (bool_decide (is_Some (array_index (fst p))))) props.

(** Own property values in the order of OrdinaryOwnPropertyKeys: array
    indices ascending, then the other names in creation order. *)
Definition own_values (props : list (string * value)) : list value :=
  List.map snd (indexed_props props) ++ List.map snd (named_props props).

Fixpoint chars (s : string) : list value :=
  match s with
  | EmptyString => []
  | String a s' => VStr (String a EmptyString) :: chars s'
  end.

Definition Object_values (o : value) : M value :=
  fun h =>
    match o with
    | VUndefined | VNull => throw TypeError h
    | VBool _ | VNum _ => alloc (Arr []) h
    | VStr s => alloc (Arr (chars s)) h
    | VRef l =>
        match h !! l with
        | Some (Obj props) => alloc (Arr (own_values props)) h
        | Some (Arr elems) => alloc (Arr elems) h
        | None => throw BadRef h
        end
    end.

(** *** Array.prototype.map *)

Fixpoint map_elems (cb : value -> M value) (elems : list value) : M (list value) :=
  match elems with
  | [] => ret []
  | v :: elems' =>
      let* x := cb v in
      let* xs := map_elems cb elems' in
      ret (x :: xs)
  end.

(** [arr.map(cb)]: on anything but an array there is no method [map]
    to call. *)
Definition Array_map (arr : value) (cb : value -> M value) : M value :=
  fun h =>
    match arr with
    | VRef l =>
        match h !! l with
        | Some (Arr elems) =>
            (let* xs := map_elems cb elems in alloc (Arr xs)) h
        | Some (Obj _) => throw TypeError h
        | None => throw BadRef h
        end
    | _ => throw TypeError h
    end.

(** *** What can be observed of a heap *)

Definition is_object (h : heap) (v : value) : bool :=
  match v with
  | VRef l => match h !! l with Some (Obj _) => true | _ => false end
  | _ => false
  end.

Definition array_elems (h : heap) (v : value) : option (list value) :=
  match v with
  | VRef l => match h !! l with Some (Arr elems) => Some elems | _ => None end
  | _ => None
  end.

(** Whether an object has an own property named [k]. *)
Definition has_prop (h : heap) (v : value) (k : string) : bool :=
  match v with
  | VRef l =>
      match h !! l with
      | Some (Obj props) => existsb (fun p => String.eqb (fst p) k) props
      | _ => false
      end
  | _ => false
  end.

(** A value is valid in a heap when it is no reference out of it; a
    heap is closed when it holds valid values only.  Every heap a
    JavaScript program builds is closed. *)
Definition valid (h : heap) (v : value) : bool :=
  match v with
  | VRef l => bool_decide (l < List.length h)
  | _ => true
  end.

Definition cell_values (c : cell) : list value :=
  match c with
  | Obj props => List.map snd props
  | Arr elems => elems
  end.

Definition closed (h : heap) : bool :=
  forallb (fun c => forallb (valid h) (cell_values c)) h.

(** The tree reachable from a value, cut at depth [n]: what a reader
    of the value that follows at most [n] references sees. *)
#[local] Unset Elimination Schemes.
Inductive tree : Type :=
  | TUndefined
  | TNull
  | TBool (b : bool)
  | TNum (n : Z)
  | TStr (s : string)
  | TObj (props : list (string * tree))
  | TArr (elems : list tree)
  | TCut
  | TBad.
#[local] Set Elimination Schemes.

Fixpoint snapshot (n : nat) (h : heap) (v : value) : tree :=
  match v with
  | VUndefined => TUndefined
  | VNull => TNull
  | VBool b => TBool b
  | VNum z => TNum z
  | VStr s => TStr s
  | VRef l =>
      match n with
      | O => TCut
      | S n' =>
          match h !! l with
          | Some (Obj props) =>
              TObj (List.map (fun p => (fst p, snapshot n' h (snd p))) props)
          | Some (Arr elems) => TArr (List.map (snapshot n' h) elems)
          | None => TBad
          end
      end
  end.

(** Two values, each in its heap, that no reader can tell apart. *)
Definition same_in (h1 : heap) (v1 : value) (h2 : heap) (v2 : value) : Prop :=
  forall n, snapshot n h1 v1 = snapshot n h2 v2.

(** *** More observers *)

(** The values off which no property can be read. *)
Definition nullish (v : value) : bool :=
  match v with
  | VUndefined | VNull => true
  | _ => false
  end.

(** The own property names of an object, in creation order. *)
Definition own_keys (h : heap) (v : value) : option (list string) :=
  match v with
  | VRef l =>
      match h !! l with
      | Some (Obj props) => Some (List.map fst props)
      | _ => None
      end
  | _ => None
  end.

End JS.

Import JS.

(** ** The endpoint *)

Module BlogXml.

(** *** Module evaluation (lines 3 and 4) *)

(** The bindings of the module scope, and [import.meta.env]. *)
Record module_scope : Type := {
  postImportResult : value;
  posts : value;
  import_meta_env : value
}.

(** The content store as the bundler sees it when it expands the glob:
    the Markdown files of src/pages/blog in directory-scan order, each
    with the module its import evaluates to. *)
Abbreviation content_store := (list (string * value)).

Definition glob_key (name : string) : string := "../blog/" +:+ name.

(** [import.meta.glob("../blog/*.md", { eager: true })]: an object
    literal with one property per matched file, keyed by the file's
    path relative to the importing module. *)
Definition import_meta_glob (files : content_store) : M value :=
  alloc (Obj (fold_left (fun props f => define_prop (glob_key (fst f)) (snd f) props)
                        files [])).

Definition module_init (files : content_store) (env : value) : M module_scope :=
  let* imported := import_meta_glob files in
  let* values := Object_values imported in
  ret {| postImportResult := imported; posts := values; import_meta_env := env |}.

(** *** The handler (lines 6 to 16) *)

(** The callback of [posts.map]. *)
Definition item_of_post (post : value) : M value :=
  let* link := get_prop post "url" in
  let* fm := get_prop post "frontmatter" in
  let* title := get_prop fm "title" in
  let* fm' := get_prop post "frontmatter" in
  let* pubDate := get_prop fm' "publishedAt" in
  alloc (Obj [("link", link); ("title", title); ("pubDate", pubDate)]).

Section Handler.

(** The serializer is a collaborator from another package. *)
Variable rss : value -> M value.

Definition get (m : module_scope) : M value :=
  let* site := get_prop (import_meta_env m) "SITE" in
  let* items := Array_map (posts m) item_of_post in
  let* descriptor :=
    alloc (Obj [("title", VStr "Interactions.Rest Blog");
                ("description", VStr "A blog about Workers and web development");
                ("site", site);
                ("items", items)]) in
  rss descriptor.

End Handler.

(** *** Reading a post and a feed descriptor *)

(** [post.frontmatter.k] *)
Definition post_field (h : heap) (post : value) (k : string) : completion value :=
  match read_prop h post "frontmatter" with
  | Normal fm => read_prop h fm k
  | Throw e => Throw e
  end.

(** A loaded post is what the framework's Markdown import evaluates to:
    a module object whose [frontmatter] is an object. *)
Definition loaded_post (h : heap) (post : value) : bool :=
  is_object h post &&
  match read_prop h post "frontmatter" with
  | Normal fm => is_object h fm
  | Throw _ => false
  end.

Definition loaded_store (h : heap) (files : content_store) : bool :=
  forallb (fun f => loaded_post h (snd f)) files.

(** The module scope as module evaluation leaves it: [import.meta.env]
    is an object and [posts] an array of loaded posts. *)
Definition loaded_module (h : heap) (m : module_scope) : bool :=
  is_object h (import_meta_env m) &&
  match array_elems h (posts m) with
  | Some ps => forallb (loaded_post h) ps
  | None => false
  end.

(** [get] calls the serializer on descriptor [d] in heap [h'], whatever
    the serializer is. *)
Definition passes_to_rss (m : module_scope) (h : heap) (d : value) (h' : heap) : Prop :=
  forall rss : value -> M value, get rss m h = rss d h'.

(** [descriptor.items] as the list of its elements. *)
Definition feed_items (h : heap) (d : value) : option (list value) :=
  match read_prop h d "items" with
  | Normal a => array_elems h a
  | Throw _ => None
  end.

Definition value_of (c : completion value) : value :=
  match c with
  | Normal v => v
  | Throw _ => VUndefined
  end.

(** The item object the callback allocates for a post read in [h]. *)
Definition item_cell (h : heap) (post : value) : cell :=
  Obj [("link", value_of (read_prop h post "url"));
       ("title", value_of (post_field h post "title"));
       ("pubDate", value_of (post_field h post "publishedAt"))].

(** The descriptor object [get] allocates, with its items at [items]. *)
Definition descriptor_cell (h : heap) (m : module_scope) (items : value) : cell :=
  Obj [("title", VStr "Interactions.Rest Blog");
       ("description", VStr "A blog about Workers and web development");
       ("site", value_of (read_prop h (import_meta_env m) "SITE"));
       ("items", items)].

(** Everything [get] allocates, in allocation order: the item objects,
    the items array, the descriptor. *)
Definition allocated (h : heap) (m : module_scope) (ps : list value) : list cell :=
  List.map (item_cell h) ps ++
  [Arr (List.map VRef (seq (List.length h) (List.length ps)));
   descriptor_cell h m (VRef (List.length h + List.length ps))].

(** *** What module evaluation leaves *)

(** The properties of the glob object when no two files share a
    name. *)
Definition glob_props (files : content_store) : list (string * value) :=
  List.map (fun f => (glob_key (fst f), snd f)) files.

(** The two allocations of module evaluation, and the scope it
    leaves. *)
Definition scope_at (h : heap) (env : value) : module_scope :=
  {| postImportResult := VRef (length h);
     posts := VRef (S (length h));
     import_meta_env := env |}.

Definition loaded_at (h : heap) (files : content_store) : heap :=
  h ++ [Obj (glob_props files); Arr (List.map snd files)].

(** *** Comparing feeds *)

(** [item], read in [h'], carries the three fields of [post], read in
    [h]. *)
Definition built_from (h : heap) (post : value) (h' : heap) (item : value) : Prop :=
  read_prop h' item "link" = read_prop h post "url" /\
  read_prop h' item "title" = post_field h post "title" /\
  read_prop h' item "pubDate" = post_field h post "publishedAt".

(** The feed that [get] hands over in heap [h] has one item per file of
    [files], built from that file, in the files' order. *)
Definition feed_reflects (files : content_store) (m : module_scope) (h : heap) : Prop :=
  exists d h' items,
    passes_to_rss m h d h' /\
    feed_items h' d = Some items /\
    Forall2 (fun item f => built_from h (snd f) h' item) items files.

(** Two posts, each in its heap, with the same [url], front-matter
    [title] and front-matter [publishedAt]. *)
Definition agree (h1 : heap) (post1 : value) (h2 : heap) (post2 : value) : Prop :=
  same_in h1 (value_of (read_prop h1 post1 "url"))
          h2 (value_of (read_prop h2 post2 "url")) /\
  same_in h1 (value_of (post_field h1 post1 "title"))
          h2 (value_of (post_field h2 post2 "title")) /\
  same_in h1 (value_of (post_field h1 post1 "publishedAt"))
          h2 (value_of (post_field h2 post2 "publishedAt")).

(** The snapshot of the feed, computed from the posts: of an item, of
    the items array, of the descriptor. *)
Definition item_tree (n : nat) (h : heap) (post : value) : tree :=
  match n with
  | O => TCut
  | S n' =>
      TObj [("link", snapshot n' h (value_of (read_prop h post "url")));
            ("title", snapshot n' h (value_of (post_field h post "title")));
            ("pubDate", snapshot n' h (value_of (post_field h post "publishedAt")))]
  end.

Definition items_tree (n : nat) (h : heap) (ps : list value) : tree :=
  match n with
  | O => TCut
  | S n' => TArr (List.map (item_tree n' h) ps)
  end.

Definition feed_tree (n : nat) (h : heap) (m : module_scope) (ps : list value) : tree :=
  match n with
  | O => TCut
  | S n' =>
      TObj [("title", TStr "Interactions.Rest Blog");
            ("description", TStr "A blog about Workers and web development");
            ("site", snapshot n' h (value_of (read_prop h (import_meta_env m) "SITE")));
            ("items", items_tree n' h ps)]
  end.

(** *** Posts the callback can map *)

(** The callback reads [post.url] and two properties of
    [post.frontmatter]: it needs a post, and a front matter, that are
    neither undefined nor null. *)
Definition mappable (h : heap) (post : value) : bool :=
  match read_prop h post "frontmatter" with
  | Normal fm => negb (nullish fm)
  | Throw _ => false
  end.

End BlogXml.

(** ** The blog as it stands *)

(** The two posts of src/pages/blog as the framework loads them, and
    variations of them. *)
Module Blog.

Import BlogXml.

Definition env_object : cell :=
  Obj [("SITE", VStr "https://blog.interactions.rest")].

Definition bootstrapping_d1 : list cell :=
  [Obj [("layout", VStr "../../layouts/Post.astro");
        ("title", VStr "Bootstrapping your D1 Database With D1-ORM");
        ("image", VStr "/images/bootstrap-d1/icon");
        ("publishedAt", VStr "2022-11-18T00:00:00.000Z");
        ("category", VStr "Cloudflare Workers, D1, SQL")];
   Obj [("frontmatter", VRef 1);
        ("file", VStr "/src/pages/blog/bootstrapping-d1.md");
        ("url", VStr "/blog/bootstrapping-d1");
        ("body", VStr "### What is D1?")]].

Definition esbuild_on_the_edge : list cell :=
  [Obj [("layout", VStr "../../layouts/Post.astro");
        ("title", VStr "Running Esbuild on the Edge");
        ("image", VStr "/images/esbuild-edge/icon");
        ("publishedAt", VStr "2022-11-17T00:00:00.000Z");
        ("category", VStr "Cloudflare Workers, WebAssembly")];
   Obj [("frontmatter", VRef 3);
        ("file", VStr "/src/pages/blog/esbuild-on-the-edge.md");
        ("url", VStr "/blog/esbuild-on-the-edge");
        ("body", VStr "### What is Esbuild?")]].

(** A post whose front matter names neither a title nor a date. *)
Definition untitled : list cell :=
  [Obj [("layout", VStr "../../layouts/Post.astro")];
   Obj [("frontmatter", VRef 5);
        ("file", VStr "/src/pages/blog/untitled.md");
        ("url", VStr "/blog/untitled");
        ("body", VStr "")]].

Definition env : value := VRef 0.

Definition modules : heap :=
  env_object :: bootstrapping_d1 ++ esbuild_on_the_edge ++ untitled.

Definition files : content_store :=
  [("bootstrapping-d1.md", VRef 2); ("esbuild-on-the-edge.md", VRef 4)].

Definition files_with_untitled : content_store :=
  files ++ [("untitled.md", VRef 6)].

(** The same two posts with another layout, image, category and body,
    and a heap laid out differently. *)
Definition restyled : heap :=
  [Obj [("frontmatter", VRef 1);
        ("url", VStr "/blog/bootstrapping-d1");
        ("body", VStr "D1 is a database.")];
   Obj [("title", VStr "Bootstrapping your D1 Database With D1-ORM");
        ("publishedAt", VStr "2022-11-18T00:00:00.000Z");
        ("layout", VStr "../../layouts/Wide.astro");
        ("category", VStr "Databases")];
   Obj [("frontmatter", VRef 3);
        ("url", VStr "/blog/esbuild-on-the-edge");
        ("body", VStr "Esbuild is a bundler.")];
   Obj [("publishedAt", VStr "2022-11-17T00:00:00.000Z");
        ("image", VStr "/images/esbuild.png");
        ("title", VStr "Running Esbuild on the Edge")];
   Obj [("MODE", VStr "production");
        ("SITE", VStr "https://blog.interactions.rest")]].

Definition restyled_files : content_store :=
  [("bootstrapping-d1.md", VRef 0); ("esbuild-on-the-edge.md", VRef 2)].

(** The heaps and the scope that module evaluation leaves. *)
Definition scope : module_scope := scope_at modules env.

Definition loaded : heap := loaded_at modules files.

Definition loaded_with_untitled : heap := loaded_at modules files_with_untitled.

Definition restyled_scope : module_scope := scope_at restyled (VRef 4).

Definition restyled_loaded : heap := loaded_at restyled restyled_files.

(** Three more cells: a module that exports no [frontmatter], a module
    that exports no [url], and an environment without [SITE]. *)
Definition more : heap :=
  modules ++
  [Obj [("file", VStr "/src/pages/blog/readme.md");
        ("url", VStr "/blog/readme")];
   Obj [("frontmatter", VRef 3);
        ("file", VStr "/src/components/esbuild-on-the-edge.md")];
   Obj [("MODE", VStr "production")]].

Definition files_with_readme : content_store :=
  [("bootstrapping-d1.md", VRef 2); ("readme.md", VRef 7);
   ("esbuild-on-the-edge.md", VRef 4)].

Definition files_without_url : content_store :=
  [("bootstrapping-d1.md", VRef 2); ("esbuild-on-the-edge.md", VRef 8)].

End Blog.

Import BlogXml.

(** ** The model at work *)

Example own_values_order :
  own_values [("b", VNum 1); ("2", VNum 2); ("a", VNum 3); ("1", VNum 4); ("10", VNum 5)]
  = [VNum 4; VNum 2; VNum 5; VNum 1; VNum 3].
Proof. reflexivity. Qed.

Example define_prop_twice :
  define_prop "a" (VNum 9) [("b", VNum 1); ("a", VNum 3); ("c", VNum 4)]
  = [("b", VNum 1); ("a", VNum 9); ("c", VNum 4)].
Proof. reflexivity. Qed.

Example blog_module_init :
  module_init Blog.files Blog.env Blog.modules = (Normal Blog.scope, Blog.loaded).
Proof. reflexivity. Qed.

Example blog_glob_object :
  Blog.loaded !! 7 =
    Some (Obj [("../blog/bootstrapping-d1.md", VRef 2);
               ("../blog/esbuild-on-the-edge.md", VRef 4)]).
Proof. reflexivity. Qed.

Example blog_feed :
  (let (c, h') := get ret Blog.scope Blog.loaded in snapshot 3 h' (value_of c)) =
  TObj [("title", TStr "Interactions.Rest Blog");
        ("description", TStr "A blog about Workers and web development");
        ("site", TStr "https://blog.interactions.rest");
        ("items",
         TArr [TObj [("link", TStr "/blog/bootstrapping-d1");
                     ("title", TStr "Bootstrapping your D1 Database With D1-ORM");
                     ("pubDate", TStr "2022-11-18T00:00:00.000Z")];
               TObj [("link", TStr "/blog/esbuild-on-the-edge");
                     ("title", TStr "Running Esbuild on the Edge");
                     ("pubDate", TStr "2022-11-17T00:00:00.000Z")]])].
Proof. reflexivity. Qed.

(** A module that exports no [frontmatter] is not a loaded post:
    reading [title] off undefined throws. *)
Example get_throws_without_front_matter :
  let h := [Blog.env_object; Obj [("url", VStr "/blog/readme")]; Arr [VRef 1]] in
  get ret {| postImportResult := VNull; posts := VRef 2; import_meta_env := VRef 0 |} h
  = (Throw TypeError, h).
Proof. reflexivity. Qed.

(** ** Reading is stable under allocation *)

Section Frame.

Variables (h ext : heap).

Lemma is_object_inv v :
  is_object h v = true -> exists l props, v = VRef l /\ h !! l = Some (Obj props).
Proof.
  destruct v as [| | | | |l]; try discriminate.
  unfold is_object.
  destruct (h !! l) as [[props|elems]|] eqn:E; try discriminate.
  intros _. exists l, props. auto.
Qed.

Lemma is_object_valid v : is_object h v = true -> valid h v = true.
Proof.
  intros (l & props & -> & Hl)%is_object_inv. unfold valid.
  apply bool_decide_eq_true. eapply lookup_lt_Some, Hl.
Qed.

Lemma read_prop_app v k :
  valid h v = true -> read_prop (h ++ ext) v k = read_prop h v k.
Proof.
  destruct v as [| | | | |l]; auto.
  unfold valid, read_prop. intros Hl%bool_decide_eq_true.
  rewrite lookup_app_l by assumption. reflexivity.
Qed.

Lemma is_object_app v : is_object h v = true -> is_object (h ++ ext) v = true.
Proof.
  intros (l & props & -> & Hl)%is_object_inv. unfold is_object.
  rewrite (lookup_app_l_Some _ _ _ _ Hl). reflexivity.
Qed.

Lemma array_elems_app v elems :
  array_elems h v = Some elems -> array_elems (h ++ ext) v = Some elems.
Proof.
  destruct v as [| | | | |l]; try discriminate.
  unfold array_elems.
  destruct (h !! l) as [[props|els]|] eqn:E; try discriminate.
  intros [= <-]. rewrite (lookup_app_l_Some _ _ _ _ E). reflexivity.
Qed.

End Frame.

(** ** The handler, step by step *)

Lemma loaded_post_inv h post :
  loaded_post h post = true ->
  exists fm,
    is_object h post = true /\ read_prop h post "frontmatter" = Normal fm /\
    is_object h fm = true.
Proof.
  unfold loaded_post. intros [Hp Hfm]%andb_true_iff.
  destruct (read_prop h post "frontmatter") as [fm|e]; [|discriminate].
  exists fm. auto.
Qed.

Lemma read_prop_object h v k :
  is_object h v = true -> read_prop h v k = Normal (value_of (read_prop h v k)).
Proof.
  intros (l & props & -> & Hl)%is_object_inv.
  unfold read_prop. rewrite Hl. reflexivity.
Qed.

Lemma post_field_loaded h post k :
  loaded_post h post = true ->
  post_field h post k = Normal (value_of (post_field h post k)).
Proof.
  intros (fm & _ & Hfm & Ho)%loaded_post_inv.
  unfold post_field. rewrite Hfm. apply read_prop_object, Ho.
Qed.

Lemma post_field_app h ext post k :
  loaded_post h post = true ->
  post_field (h ++ ext) post k = post_field h post k.
Proof.
  intros (fm & Hp & Hfm & Ho)%loaded_post_inv.
  unfold post_field.
  rewrite read_prop_app by (apply is_object_valid, Hp).
  rewrite Hfm. apply read_prop_app, is_object_valid, Ho.
Qed.

Lemma loaded_post_app h ext post :
  loaded_post h post = true -> loaded_post (h ++ ext) post = true.
Proof.
  intros (fm & Hp & Hfm & Ho)%loaded_post_inv.
  unfold loaded_post.
  rewrite (is_object_app _ _ _ Hp).
  rewrite read_prop_app by (apply is_object_valid, Hp).
  rewrite Hfm. apply is_object_app, Ho.
Qed.

(** The callback reads three values and allocates one object. *)
Lemma item_of_post_loaded h ext post :
  loaded_post h post = true ->
  item_of_post post (h ++ ext) =
    (Normal (VRef (length (h ++ ext))), (h ++ ext) ++ [item_cell h post]).
Proof.
  intros Hpost.
  pose proof (post_field_app h ext post "title" Hpost) as Ht.
  pose proof (post_field_app h ext post "publishedAt" Hpost) as Hd.
  rewrite (post_field_loaded h post "title" Hpost) in Ht.
  rewrite (post_field_loaded h post "publishedAt" Hpost) in Hd.
  destruct (loaded_post_inv _ _ Hpost) as (fm & Hp & Hfm & Ho).
  pose proof (read_prop_app h ext post "url" (is_object_valid _ _ Hp)) as Hu.
  rewrite (read_prop_object h post "url" Hp) in Hu.
  pose proof (read_prop_app h ext post "frontmatter" (is_object_valid _ _ Hp)) as Hf.
  rewrite Hfm in Hf.
  unfold post_field in Ht, Hd. rewrite Hf in Ht, Hd.
  unfold item_of_post, bind, get_prop, alloc, item_cell.
  rewrite Hu, Hf, Ht, Hd. reflexivity.
Qed.

Lemma map_elems_items h ps : forall ext,
  forallb (loaded_post h) ps = true ->
  map_elems item_of_post ps (h ++ ext) =
    (Normal (List.map VRef (seq (length (h ++ ext)) (length ps))),
     (h ++ ext) ++ List.map (item_cell h) ps).
Proof.
  induction ps as [|p ps IH]; intros ext Hps.
  - simpl. unfold ret. rewrite app_nil_r. reflexivity.
  - apply andb_true_iff in Hps as [Hp Hps].
    cbn [map_elems]. unfold bind at 1.
    rewrite (item_of_post_loaded h ext p Hp).
    unfold bind at 1. rewrite <- app_assoc.
    rewrite (IH (ext ++ [item_cell h p]) Hps).
    unfold ret. cbn [List.map seq length].
    rewrite !length_app. cbn [length].
    rewrite <- !app_assoc. cbn [app].
    replace (length h + (length ext + 1)) with (S (length h + length ext)) by lia.
    reflexivity.
Qed.

(** What [get] does on a loaded module: it allocates [allocated] on
    top of the heap and calls the serializer on the last object. *)
Lemma get_runs (rss : value -> M value) h m ps :
  loaded_module h m = true ->
  array_elems h (posts m) = Some ps ->
  get rss m h = rss (VRef (length h + length ps + 1)) (h ++ allocated h m ps).
Proof.
  unfold loaded_module. intros [Henv Hposts]%andb_true_iff Hps.
  rewrite Hps in Hposts.
  unfold get, bind at 1, get_prop.
  rewrite (read_prop_object h _ "SITE" Henv).
  unfold bind at 1, Array_map.
  destruct (posts m) as [| | | | |l]; try discriminate.
  unfold array_elems in Hps.
  destruct (h !! l) as [[props|elems]|]; try discriminate.
  injection Hps as ->.
  pose proof (map_elems_items h ps [] Hposts) as Hmap.
  rewrite !app_nil_r in Hmap.
  unfold bind. rewrite Hmap.
  unfold alloc, allocated, descriptor_cell.
  rewrite !length_app, !length_map. cbn [length].
  rewrite <- !app_assoc. cbn [app].
  replace (length h + length ps + 1) with (length h + (length ps + 1)) by lia.
  reflexivity.
Qed.

(** ** Reading the feed back *)

Section ReadBack.

Variables (h : heap) (m : module_scope) (ps : list value).

Lemma allocated_item k post :
  ps !! k = Some post ->
  (h ++ allocated h m ps) !! (length h + k) = Some (item_cell h post).
Proof.
  intros Hk. unfold allocated.
  rewrite lookup_app_r by lia.
  replace (length h + k - length h) with k by lia.
  apply lookup_app_l_Some. rewrite list_lookup_fmap, Hk. reflexivity.
Qed.

Lemma allocated_items :
  (h ++ allocated h m ps) !! (length h + length ps) =
    Some (Arr (List.map VRef (seq (length h) (length ps)))).
Proof.
  unfold allocated.
  rewrite lookup_app_r by lia.
  replace (length h + length ps - length h) with (length (List.map (item_cell h) ps) + 0)
    by (rewrite length_map; lia).
  rewrite lookup_app_r by lia.
  replace (length (List.map (item_cell h) ps) + 0 - length (List.map (item_cell h) ps))
    with 0 by lia.
  reflexivity.
Qed.

Lemma allocated_descriptor :
  (h ++ allocated h m ps) !! (length h + length ps + 1) =
    Some (descriptor_cell h m (VRef (length h + length ps))).
Proof.
  unfold allocated.
  rewrite lookup_app_r by lia.
  replace (length h + length ps + 1 - length h)
    with (length (List.map (item_cell h) ps) + 1)
    by (rewrite length_map; lia).
  rewrite lookup_app_r by lia.
  replace (length (List.map (item_cell h) ps) + 1 - length (List.map (item_cell h) ps))
    with 1 by lia.
  reflexivity.
Qed.

Lemma feed_items_allocated :
  feed_items (h ++ allocated h m ps) (VRef (length h + length ps + 1)) =
    Some (List.map VRef (seq (length h) (length ps))).
Proof.
  unfold feed_items, read_prop. rewrite allocated_descriptor.
  cbn. rewrite allocated_items. reflexivity.
Qed.

Lemma items_lookup k post :
  ps !! k = Some post ->
  List.map VRef (seq (length h) (length ps)) !! k = Some (VRef (length h + k)).
Proof.
  intros Hk. rewrite list_lookup_fmap.
  rewrite lookup_seq_lt by (eapply lookup_lt_Some, Hk). reflexivity.
Qed.

End ReadBack.

Lemma loaded_module_inv h m :
  loaded_module h m = true ->
  exists ps,
    is_object h (import_meta_env m) = true /\
    array_elems h (posts m) = Some ps /\
    forallb (loaded_post h) ps = true.
Proof.
  unfold loaded_module. intros [Henv Hps]%andb_true_iff.
  destruct (array_elems h (posts m)) as [ps|]; [|discriminate].
  exists ps. auto.
Qed.

Lemma loaded_posts_lookup h (ps : list value) k post :
  forallb (loaded_post h) ps = true -> ps !! k = Some post ->
  loaded_post h post = true.
Proof.
  intros Hps Hk. rewrite forallb_forall in Hps.
  apply Hps, list_elem_of_In, list_elem_of_lookup. eauto.
Qed.

Lemma lookup_prop_absent k props :
  existsb (fun p => String.eqb (fst p) k) props = false ->
  lookup_prop k props = VUndefined.
Proof.
  unfold lookup_prop. induction props as [|[k' v] props IH]; [reflexivity|].
  cbn [existsb List.find fst]. destruct (String.eqb k' k); [discriminate|].
  exact IH.
Qed.

Lemma read_prop_absent h v k :
  is_object h v = true -> has_prop h v k = false ->
  read_prop h v k = Normal VUndefined.
Proof.
  intros (l & props & -> & Hl)%is_object_inv.
  unfold has_prop, read_prop. rewrite Hl.
  intros ->%lookup_prop_absent. reflexivity.
Qed.

(** ** The feed descriptor *)

(** C1. For every post of the module-level [posts], the feed item that
    [get] builds for it has [link] equal to the post's [url], [title]
    equal to its front-matter [title] and [pubDate] equal to its
    front-matter [publishedAt]: the very values, untransformed. *)
Theorem get_item_copies_post_fields h m ps k post :
  loaded_module h m = true ->
  array_elems h (posts m) = Some ps ->
  ps !! k = Some post ->
  exists d h' items item url title publishedAt,
    passes_to_rss m h d h' /\
    feed_items h' d = Some items /\
    items !! k = Some item /\
    read_prop h post "url" = Normal url /\
    post_field h post "title" = Normal title /\
    post_field h post "publishedAt" = Normal publishedAt /\
    read_prop h' item "link" = Normal url /\
    read_prop h' item "title" = Normal title /\
    read_prop h' item "pubDate" = Normal publishedAt.
Proof.
  intros Hm Hps Hk.
  destruct (loaded_module_inv _ _ Hm) as (ps' & _ & Hps' & Hall).
  rewrite Hps in Hps'. injection Hps' as <-.
  pose proof (loaded_posts_lookup _ _ _ _ Hall Hk) as Hpost.
  destruct (loaded_post_inv _ _ Hpost) as (fm & Hobj & _ & _).
  exists (VRef (length h + length ps + 1)), (h ++ allocated h m ps),
    (List.map VRef (seq (length h) (length ps))), (VRef (length h + k)),
    (value_of (read_prop h post "url")),
    (value_of (post_field h post "title")),
    (value_of (post_field h post "publishedAt")).
  split; [intros rss; apply get_runs; assumption|].
  split; [apply feed_items_allocated|].
  split; [eapply items_lookup, Hk|].
  split; [apply read_prop_object, Hobj|].
  split; [apply post_field_loaded, Hpost|].
  split; [apply post_field_loaded, Hpost|].
  unfold read_prop. rewrite (allocated_item h m ps k post Hk).
  repeat split.
Qed.

(** C3. The feed descriptor has the fixed channel title and
    description, and its [site] is the value of [import.meta.env.SITE],
    verbatim. *)
Theorem get_channel_fields h m :
  loaded_module h m = true ->
  exists d h' site,
    passes_to_rss m h d h' /\
    read_prop h (import_meta_env m) "SITE" = Normal site /\
    read_prop h' d "title" = Normal (VStr "Interactions.Rest Blog") /\
    read_prop h' d "description" =
      Normal (VStr "A blog about Workers and web development") /\
    read_prop h' d "site" = Normal site.
Proof.
  intros Hm.
  destruct (loaded_module_inv _ _ Hm) as (ps & Henv & Hps & _).
  exists (VRef (length h + length ps + 1)), (h ++ allocated h m ps),
    (value_of (read_prop h (import_meta_env m) "SITE")).
  split; [intros rss; apply get_runs; assumption|].
  split; [apply read_prop_object, Henv|].
  unfold read_prop at 1 2 3. rewrite allocated_descriptor.
  repeat split.
Qed.

(** C7. A post whose front matter has no [title], or no [publishedAt],
    does not make [get] throw: the post still gets its feed item, and
    the field that is missing reads undefined in it. *)
Theorem get_missing_front_matter_field h m ps k post fm :
  loaded_module h m = true ->
  array_elems h (posts m) = Some ps ->
  ps !! k = Some post ->
  read_prop h post "frontmatter" = Normal fm ->
  exists d h' items item,
    passes_to_rss m h d h' /\
    feed_items h' d = Some items /\
    items !! k = Some item /\
    is_object h' item = true /\
    (has_prop h fm "title" = false ->
       read_prop h' item "title" = Normal VUndefined) /\
    (has_prop h fm "publishedAt" = false ->
       read_prop h' item "pubDate" = Normal VUndefined).
Proof.
  intros Hm Hps Hk Hfm.
  destruct (loaded_module_inv _ _ Hm) as (ps' & _ & Hps' & Hall).
  rewrite Hps in Hps'. injection Hps' as <-.
  pose proof (loaded_posts_lookup _ _ _ _ Hall Hk) as Hpost.
  destruct (loaded_post_inv _ _ Hpost) as (fm' & _ & Hfm' & Hobj).
  rewrite Hfm in Hfm'. injection Hfm' as <-.
  exists (VRef (length h + length ps + 1)), (h ++ allocated h m ps),
    (List.map VRef (seq (length h) (length ps))), (VRef (length h + k)).
  split; [intros rss; apply get_runs; assumption|].
  split; [apply feed_items_allocated|].
  split; [eapply items_lookup, Hk|].
  unfold is_object, read_prop. rewrite (allocated_item h m ps k post Hk).
  split; [reflexivity|].
  unfold item_cell, post_field. rewrite Hfm.
  split; intros Hno; rewrite (read_prop_absent h fm _ Hobj Hno); reflexivity.
Qed.

(** ** The handler only allocates *)

Lemma item_of_post_allocates post h :
  exists c fresh, item_of_post post h = (c, h ++ fresh).
Proof.
  unfold item_of_post, bind, get_prop, alloc.
  destruct (read_prop h post "url") as [link|e];
    [|exists (Throw e), []; rewrite app_nil_r; reflexivity].
  destruct (read_prop h post "frontmatter") as [fm|e];
    [|exists (Throw e), []; rewrite app_nil_r; reflexivity].
  destruct (read_prop h fm "title") as [title|e];
    [|exists (Throw e), []; rewrite app_nil_r; reflexivity].
  destruct (read_prop h fm "publishedAt") as [pubDate|e];
    [|exists (Throw e), []; rewrite app_nil_r; reflexivity].
  eexists _, _. reflexivity.
Qed.

Lemma map_elems_allocates ps : forall h,
  exists c fresh, map_elems item_of_post ps h = (c, h ++ fresh).
Proof.
  induction ps as [|p ps IH]; intros h.
  - exists (Normal []), []. rewrite app_nil_r. reflexivity.
  - cbn [map_elems]. unfold bind at 1.
    destruct (item_of_post_allocates p h) as (c & fresh & ->).
    destruct c as [x|e]; [|eexists _, _; reflexivity].
    unfold bind at 1.
    destruct (IH (h ++ fresh)) as (c' & fresh' & ->).
    rewrite <- app_assoc.
    destruct c' as [xs|e]; eexists _, _; reflexivity.
Qed.

(** The serializer is called last, in tail position: [get] is its
    own run with the serializer that returns its argument, followed by
    the serializer. *)
Lemma get_factors (rss : value -> M value) m h :
  get rss m h =
    match get ret m h with
    | (Normal d, h') => rss d h'
    | (Throw e, h') => (Throw e, h')
    end.
Proof.
  unfold get, bind, get_prop, alloc, ret.
  destruct (read_prop h (import_meta_env m) "SITE") as [site|e]; [|reflexivity].
  destruct (Array_map (posts m) item_of_post h) as [[items|e] h']; reflexivity.
Qed.

Lemma get_ret_allocates m h :
  exists c fresh,
    get ret m h = (c, h ++ fresh) /\
    forall d, c = Normal d ->
      exists l, d = VRef l /\ length h <= l < length (h ++ fresh).
Proof.
  unfold get, bind at 1, get_prop.
  destruct (read_prop h (import_meta_env m) "SITE") as [site|e].
  2:{ exists (Throw e), []. rewrite app_nil_r. split; [reflexivity|discriminate]. }
  unfold bind at 1, Array_map.
  destruct (posts m) as [| | | | |a];
    try (exists (Throw TypeError), []; rewrite app_nil_r;
         split; [reflexivity|discriminate]).
  destruct (h !! a) as [[props|elems]|].
  - exists (Throw TypeError), []. rewrite app_nil_r. split; [reflexivity|discriminate].
  - destruct (map_elems_allocates elems h) as (c & fresh & Hmap).
    unfold bind. rewrite Hmap.
    destruct c as [xs|e].
    + unfold alloc, ret. rewrite <- !app_assoc. cbn [app].
      eexists _, _. split; [reflexivity|].
      intros d [= <-]. eexists. split; [reflexivity|].
      rewrite !length_app. cbn [length]. lia.
    + exists (Throw e), fresh. split; [reflexivity|discriminate].
  - exists (Throw BadRef), []. rewrite app_nil_r. split; [reflexivity|discriminate].
Qed.

(** C10. [get] writes to nothing that exists: whether it reaches the
    serializer or throws, the heap it leaves is the heap it found
    followed by newly allocated objects, so the [posts] array and every
    post are as they were, and the descriptor is one of the new
    objects. *)
Theorem get_only_allocates m h :
  exists fresh,
    ((exists l, passes_to_rss m h (VRef l) (h ++ fresh) /\
                length h <= l < length (h ++ fresh)) \/
     (exists e, forall rss : value -> M value,
                get rss m h = (Throw e, h ++ fresh))) /\
    forall l, l < length h -> (h ++ fresh) !! l = h !! l.
Proof.
  destruct (get_ret_allocates m h) as (c & fresh & Hrun & Hfresh).
  exists fresh. split; [|intros; apply lookup_app_l; assumption].
  destruct c as [d|e].
  - left. destruct (Hfresh d eq_refl) as (l & -> & Hl).
    exists l. split; [|exact Hl].
    intros rss. rewrite get_factors, Hrun. reflexivity.
  - right. exists e. intros rss. rewrite get_factors, Hrun. reflexivity.
Qed.

(** ** Module evaluation *)

Lemma array_index_glob_key name : array_index (glob_key name) = None.
Proof.
  unfold array_index, glob_key.
  change ("../blog/" +:+ name) with (String "."%char ("./blog/" +:+ name)).
  unfold NilZero.uint_of_string. cbn [NilEmpty.uint_of_string].
  destruct (NilEmpty.uint_of_string _); reflexivity.
Qed.

Lemma glob_key_inj name1 name2 : glob_key name1 = glob_key name2 -> name1 = name2.
Proof.
  unfold glob_key. intros Heq.
  change (String.append "../blog/" name1 = String.append "../blog/" name2) in Heq.
  cbv [String.append] in Heq. injection Heq as ->. reflexivity.
Qed.

Lemma define_prop_fresh k v props :
  k ∉ List.map fst props -> define_prop k v props = props ++ [(k, v)].
Proof.
  induction props as [|[k' v'] props IH]; intros Hk; [reflexivity|].
  cbn [define_prop]. cbn [List.map fst] in Hk.
  apply not_elem_of_cons in Hk as [Hne Hk].
  destruct (String.eqb_spec k' k) as [->|_]; [contradiction|].
  rewrite (IH Hk). reflexivity.
Qed.

Lemma glob_props_keys files name :
  glob_key name ∈ List.map fst (glob_props files) -> name ∈ List.map fst files.
Proof.
  unfold glob_props. rewrite !list_elem_of_In, !in_map_iff.
  intros ([k v] & Hk & ([n v'] & [= <- <-] & Hin)%in_map_iff).
  cbn [fst] in Hk. apply glob_key_inj in Hk as ->.
  exists (name, v'). auto.
Qed.

Lemma glob_fold files : forall acc,
  NoDup (List.map fst (acc ++ files)) ->
  fold_left (fun props f => define_prop (glob_key (fst f)) (snd f) props)
            files (glob_props acc) = glob_props (acc ++ files).
Proof.
  induction files as [|[name v] files IH]; intros acc Hnd.
  - rewrite app_nil_r. reflexivity.
  - cbn [fold_left fst snd].
    rewrite define_prop_fresh.
    + replace (glob_props acc ++ [(glob_key name, v)])
        with (glob_props (acc ++ [(name, v)]))
        by (unfold glob_props; rewrite List.map_app; reflexivity).
      rewrite IH; rewrite <- app_assoc; [reflexivity|exact Hnd].
    + intros Hin%glob_props_keys.
      rewrite List.map_app in Hnd. apply NoDup_app in Hnd as (_ & Hdisj & _).
      apply (Hdisj name Hin). cbn [List.map fst]. left.
Qed.

Lemma own_values_glob files : own_values (glob_props files) = List.map snd files.
Proof.
  unfold own_values.
  assert (Hidx : indexed_props (glob_props files) = []).
  { induction files as [|[name v] files IH]; [reflexivity|].
    cbn [glob_props List.map indexed_props fst snd].
    rewrite array_index_glob_key. exact IH. }
  assert (Hnamed : named_props (glob_props files) = glob_props files).
  { unfold named_props.
    induction files as [|[name v] files IH]; [reflexivity|].
    cbn [glob_props List.map List.filter fst snd].
    rewrite array_index_glob_key. cbn. f_equal. apply IH.
    clear -Hidx. cbn [glob_props List.map indexed_props fst snd] in Hidx.
    rewrite array_index_glob_key in Hidx. exact Hidx. }
  rewrite Hidx, Hnamed. unfold glob_props.
  rewrite List.map_map. reflexivity.
Qed.

Lemma module_init_runs h files env :
  NoDup (List.map fst files) ->
  module_init files env h = (Normal (scope_at h env), loaded_at h files).
Proof.
  intros Hnd.
  unfold module_init, bind at 1, import_meta_glob, alloc.
  change (@nil (string * value)) with (glob_props []) at 1.
  rewrite (glob_fold files [] Hnd). cbn [app].
  unfold bind, Object_values.
  rewrite lookup_app_r by lia.
  replace (length h - length h) with 0 by lia. cbn [lookup list_lookup].
  unfold alloc, ret, scope_at, loaded_at.
  rewrite own_values_glob, length_app, <- app_assoc. cbn [length app].
  replace (length h + 1) with (S (length h)) by lia. reflexivity.
Qed.

Lemma loaded_module_at h files env :
  is_object h env = true ->
  loaded_store h files = true ->
  loaded_module (loaded_at h files) (scope_at h env) = true /\
  array_elems (loaded_at h files) (posts (scope_at h env)) =
    Some (List.map snd files).
Proof.
  intros Henv Hfiles.
  assert (Hposts : array_elems (loaded_at h files) (posts (scope_at h env)) =
                   Some (List.map snd files)).
  { unfold array_elems, scope_at, loaded_at. cbn [posts].
    rewrite lookup_app_r by lia.
    replace (S (length h) - length h) with 1 by lia. reflexivity. }
  split; [|exact Hposts].
  unfold loaded_module. rewrite Hposts.
  apply andb_true_iff. split.
  - apply is_object_app, Henv.
  - unfold loaded_store in Hfiles. rewrite forallb_forall in Hfiles.
    apply forallb_forall. intros p ([name v] & <- & Hin)%in_map_iff.
    apply loaded_post_app, (Hfiles _ Hin).
Qed.

Lemma loaded_module_app h ext m :
  loaded_module h m = true -> loaded_module (h ++ ext) m = true.
Proof.
  intros (ps & Henv & Hps & Hall)%loaded_module_inv.
  unfold loaded_module.
  rewrite (is_object_app _ _ _ Henv), (array_elems_app _ _ _ _ Hps).
  rewrite forallb_forall in Hall. apply forallb_forall.
  intros p Hp. apply loaded_post_app, Hall, Hp.
Qed.

(** The feed of a loaded module, in any later heap, is built from its
    [posts], item by item. *)
Lemma get_feed h ext m ps :
  loaded_module h m = true ->
  array_elems h (posts m) = Some ps ->
  exists d h' items,
    passes_to_rss m (h ++ ext) d h' /\
    feed_items h' d = Some items /\
    Forall2 (fun post item => built_from (h ++ ext) post h' item) ps items.
Proof.
  intros Hm Hps.
  pose proof (loaded_module_app h ext m Hm) as Hm'.
  pose proof (array_elems_app h ext _ _ Hps) as Hps'.
  destruct (loaded_module_inv _ _ Hm') as (ps' & _ & Heq & Hall).
  rewrite Hps' in Heq. injection Heq as <-.
  set (H := h ++ ext) in *.
  exists (VRef (length H + length ps + 1)), (H ++ allocated H m ps),
    (List.map VRef (seq (length H) (length ps))).
  split; [intros rss; apply get_runs; assumption|].
  split; [apply feed_items_allocated|].
  apply Forall2_same_length_lookup. split.
  - rewrite length_map, length_seq. reflexivity.
  - intros k post item Hk Hitem.
    rewrite (items_lookup H ps k post Hk) in Hitem. injection Hitem as <-.
    pose proof (loaded_posts_lookup _ _ _ _ Hall Hk) as Hpost.
    destruct (loaded_post_inv _ _ Hpost) as (fm & Hobj & _ & _).
    unfold built_from, read_prop at 1 3 4.
    rewrite (allocated_item H m ps k post Hk). cbn.
    rewrite <- (read_prop_object H post "url" Hobj).
    rewrite <- !(post_field_loaded H post _ Hpost). auto.
Qed.

(** Module evaluation followed by a request, in any later heap. *)
Lemma boot_feed h files env ext :
  NoDup (List.map fst files) ->
  is_object h env = true ->
  loaded_store h files = true ->
  module_init files env h = (Normal (scope_at h env), loaded_at h files) /\
  feed_reflects files (scope_at h env) (loaded_at h files ++ ext).
Proof.
  intros Hnd Henv Hfiles.
  split; [apply module_init_runs, Hnd|].
  destruct (loaded_module_at h files env Henv Hfiles) as [Hm Hps].
  destruct (get_feed _ ext _ _ Hm Hps) as (d & h' & items & Hrun & Hitems & Hall).
  exists d, h', items. repeat split; [exact Hrun|exact Hitems|].
  apply Forall2_flip. apply Forall2_fmap_l in Hall.
  eapply Forall2_impl; [exact Hall|]. intros f item Hb. exact Hb.
Qed.

(** C2. The feed handed to the serializer has exactly one item per
    loaded content file: none is dropped, merged or added. *)
Theorem feed_has_one_item_per_file h files env :
  NoDup (List.map fst files) ->
  is_object h env = true ->
  loaded_store h files = true ->
  exists m h0 d h' items,
    module_init files env h = (Normal m, h0) /\
    passes_to_rss m h0 d h' /\
    feed_items h' d = Some items /\
    length items = length files.
Proof.
  intros Hnd Henv Hfiles.
  destruct (boot_feed h files env [] Hnd Henv Hfiles)
    as (Hinit & d & h' & items & Hrun & Hitems & Hall).
  rewrite app_nil_r in Hrun.
  exists (scope_at h env), (loaded_at h files), d, h', items.
  repeat split; try assumption.
  eapply Forall2_length, Hall.
Qed.

(** C4. The items come in the order in which the posts were
    enumerated: [posts] lists the files' modules in directory-scan
    order, and the k-th item is built from the k-th file.  Nothing is
    sorted. *)
Theorem feed_keeps_store_order h files env :
  NoDup (List.map fst files) ->
  is_object h env = true ->
  loaded_store h files = true ->
  exists m h0 d h' items,
    module_init files env h = (Normal m, h0) /\
    array_elems h0 (posts m) = Some (List.map snd files) /\
    passes_to_rss m h0 d h' /\
    feed_items h' d = Some items /\
    Forall2 (fun item f => built_from h0 (snd f) h' item) items files.
Proof.
  intros Hnd Henv Hfiles.
  destruct (boot_feed h files env [] Hnd Henv Hfiles)
    as (Hinit & d & h' & items & Hrun & Hitems & Hall).
  rewrite app_nil_r in Hrun, Hall.
  exists (scope_at h env), (loaded_at h files), d, h', items.
  repeat split; try assumption.
  apply (loaded_module_at h files env Henv Hfiles).
Qed.

(** C8. With no content file at all, module evaluation and [get] still
    succeed, and the feed's items are the empty array. *)
Theorem empty_store_gives_empty_feed h env :
  is_object h env = true ->
  exists m h0 d h',
    module_init [] env h = (Normal m, h0) /\
    passes_to_rss m h0 d h' /\
    feed_items h' d = Some [].
Proof.
  intros Henv.
  destruct (boot_feed h [] env [] NoDup_nil_2 Henv eq_refl)
    as (Hinit & d & h' & items & Hrun & Hitems & Hall).
  rewrite app_nil_r in Hrun.
  apply Forall2_nil_inv_r in Hall as ->.
  exists (scope_at h env), (loaded_at h []), d, h'. auto.
Qed.

(** ** Snapshots *)

Lemma closed_lookup (h : heap) l c :
  closed h = true -> h !! l = Some c ->
  forallb (valid h) (cell_values c) = true.
Proof.
  unfold closed. rewrite forallb_forall. intros Hh Hl.
  apply Hh, list_elem_of_In, list_elem_of_lookup. eauto.
Qed.

Lemma lookup_prop_valid h k props :
  forallb (valid h) (List.map snd props) = true ->
  valid h (lookup_prop k props) = true.
Proof.
  unfold lookup_prop. induction props as [|[k' v] props IH]; [reflexivity|].
  cbn [List.map forallb List.find fst snd].
  intros [Hv Hprops]%andb_true_iff.
  destruct (String.eqb k' k); [exact Hv|apply IH, Hprops].
Qed.

Lemma read_prop_valid h v k :
  closed h = true -> valid h (value_of (read_prop h v k)) = true.
Proof.
  intros Hh. destruct v as [| | | | |l]; try reflexivity.
  unfold read_prop.
  destruct (h !! l) as [[props|elems]|] eqn:Hl; try reflexivity.
  apply lookup_prop_valid, (closed_lookup h l _ Hh Hl).
Qed.

Lemma post_field_valid h post k :
  closed h = true -> valid h (value_of (post_field h post k)) = true.
Proof.
  intros Hh. unfold post_field.
  destruct (read_prop h post "frontmatter") as [fm|e]; [|reflexivity].
  apply read_prop_valid, Hh.
Qed.

(** What is reachable from a value of a closed heap lies in that heap:
    allocation does not change its snapshot. *)
Lemma snapshot_app h ext n : forall v,
  closed h = true -> valid h v = true ->
  snapshot n (h ++ ext) v = snapshot n h v.
Proof.
  induction n as [|n IH]; intros v Hh Hv.
  - destruct v; reflexivity.
  - destruct v as [| | | | |l]; try reflexivity.
    apply bool_decide_eq_true in Hv.
    cbn [snapshot]. rewrite lookup_app_l by exact Hv.
    destruct (h !! l) as [[props|elems]|] eqn:Hl; [| |reflexivity].
    + pose proof (closed_lookup h l _ Hh Hl) as Hc. cbn [cell_values] in Hc.
      rewrite forallb_forall in Hc.
      f_equal. apply map_ext_in. intros [k v] Hin. cbn [fst snd]. f_equal.
      apply IH; [exact Hh|]. apply Hc, in_map_iff. exists (k, v). auto.
    + pose proof (closed_lookup h l _ Hh Hl) as Hc. cbn [cell_values] in Hc.
      rewrite forallb_forall in Hc.
      f_equal. apply map_ext_in. intros v Hin. apply IH; auto.
Qed.

Lemma item_cell_app h ext post :
  loaded_post h post = true -> item_cell (h ++ ext) post = item_cell h post.
Proof.
  intros Hpost. destruct (loaded_post_inv _ _ Hpost) as (fm & Hobj & _ & _).
  unfold item_cell.
  rewrite !(post_field_app h ext post _ Hpost).
  rewrite (read_prop_app h ext post "url" (is_object_valid _ _ Hobj)).
  reflexivity.
Qed.

(** The snapshot of the feed that [get] builds in a heap extending a
    closed heap [h] in which the module is loaded: it is computed from
    [h] alone. *)
Lemma snapshot_feed h ext m ps n :
  closed h = true ->
  loaded_module h m = true ->
  array_elems h (posts m) = Some ps ->
  snapshot n ((h ++ ext) ++ allocated (h ++ ext) m ps)
           (VRef (length (h ++ ext) + length ps + 1)) =
    feed_tree n h m ps.
Proof.
  intros Hh Hm Hps.
  destruct (loaded_module_inv _ _ Hm) as (ps' & Henv & Heq & Hall).
  rewrite Hps in Heq. injection Heq as <-.
  pose proof (read_prop_app h ext _ "SITE" (is_object_valid _ _ Henv)) as Hsite.
  assert (Hcell : forall k post, ps !! k = Some post ->
            item_cell (h ++ ext) post = item_cell h post).
  { intros k post Hk. eapply item_cell_app, loaded_posts_lookup; eassumption. }
  set (H := h ++ ext) in *.
  assert (Hframe : forall k v, valid h v = true ->
            snapshot k (H ++ allocated H m ps) v = snapshot k h v).
  { intros k v Hv. unfold H. rewrite <- app_assoc. apply snapshot_app; assumption. }
  assert (Hitem : forall k post n, ps !! k = Some post ->
            snapshot n (H ++ allocated H m ps) (VRef (length H + k)) =
            item_tree n h post).
  { intros k post [|k'] Hk; [reflexivity|].
    cbn [snapshot item_tree]. rewrite (allocated_item H m ps k post Hk).
    rewrite (Hcell k post Hk).
    unfold item_cell. cbn [List.map fst snd].
    rewrite (Hframe k' _ (read_prop_valid h post "url" Hh)).
    rewrite !(Hframe k' _ (post_field_valid h post _ Hh)).
    reflexivity. }
  assert (Hitems : forall n,
            snapshot n (H ++ allocated H m ps) (VRef (length H + length ps)) =
            items_tree n h ps).
  { intros [|k']; [reflexivity|].
    cbn [snapshot items_tree]. rewrite allocated_items.
    f_equal. rewrite List.map_map.
    apply list_eq. intros k.
    rewrite !list_lookup_fmap.
    destruct (ps !! k) as [post|] eqn:Hk.
    - rewrite lookup_seq_lt by (eapply lookup_lt_Some, Hk).
      cbn [fmap option_fmap option_map].
      f_equal. apply Hitem, Hk.
    - rewrite lookup_seq_ge by (eapply lookup_ge_None, Hk). reflexivity. }
  destruct n as [|n]; [reflexivity|].
  cbn [snapshot feed_tree]. rewrite allocated_descriptor.
  unfold descriptor_cell. cbn [List.map fst snd].
  rewrite Hsite, Hitems.
  rewrite (Hframe n _ (read_prop_valid h _ "SITE" Hh)).
  destruct n; reflexivity.
Qed.

Lemma feed_tree_agree h1 m1 ps1 h2 m2 ps2 :
  same_in h1 (value_of (read_prop h1 (import_meta_env m1) "SITE"))
          h2 (value_of (read_prop h2 (import_meta_env m2) "SITE")) ->
  Forall2 (fun post1 post2 => agree h1 post1 h2 post2) ps1 ps2 ->
  forall n, feed_tree n h1 m1 ps1 = feed_tree n h2 m2 ps2.
Proof.
  intros Hsite Hps.
  assert (Hitem : forall n post1 post2, agree h1 post1 h2 post2 ->
            item_tree n h1 post1 = item_tree n h2 post2).
  { intros [|n] post1 post2 (Hurl & Htitle & Hdate); [reflexivity|].
    cbn [item_tree]. rewrite (Hurl n), (Htitle n), (Hdate n). reflexivity. }
  assert (Hitems : forall n, items_tree n h1 ps1 = items_tree n h2 ps2).
  { intros [|n]; [reflexivity|]. cbn [items_tree]. f_equal.
    induction Hps as [|post1 post2 ps1 ps2 Hp _ IH]; [reflexivity|].
    cbn [List.map]. rewrite IH, (Hitem n post1 post2 Hp). reflexivity. }
  intros [|n]; [reflexivity|].
  cbn [feed_tree]. rewrite (Hsite n), (Hitems n). reflexivity.
Qed.

Lemma get_snapshot h ext m ps :
  closed h = true ->
  loaded_module h m = true ->
  array_elems h (posts m) = Some ps ->
  exists d h',
    passes_to_rss m (h ++ ext) d h' /\
    forall n, snapshot n h' d = feed_tree n h m ps.
Proof.
  intros Hh Hm Hps.
  exists (VRef (length (h ++ ext) + length ps + 1)),
    ((h ++ ext) ++ allocated (h ++ ext) m ps).
  split.
  - intros rss. apply get_runs.
    + apply loaded_module_app, Hm.
    + apply array_elems_app, Hps.
  - intros n. apply snapshot_feed; assumption.
Qed.

(** C5. [get] is deterministic: a second invocation hands the
    serializer a descriptor that no reader can tell from the first.
    The second invocation may run in any heap that extends the one the
    first found by [ext]: the heap the first left ([ext] beginning with
    [fresh]), with or without later allocations, and with or without
    changes made since to the objects of the first feed. *)
Theorem get_is_deterministic h m :
  closed h = true ->
  loaded_module h m = true ->
  exists d1 h1 fresh,
    passes_to_rss m h d1 h1 /\
    h1 = h ++ fresh /\
    forall ext, exists d2 h2,
      passes_to_rss m (h ++ ext) d2 h2 /\
      same_in h1 d1 h2 d2.
Proof.
  intros Hh Hm.
  destruct (loaded_module_inv _ _ Hm) as (ps & _ & Hps & _).
  exists (VRef (length h + length ps + 1)), (h ++ allocated h m ps),
    (allocated h m ps).
  split; [intros rss; apply get_runs; assumption|].
  split; [reflexivity|].
  intros ext.
  destruct (get_snapshot h ext m ps Hh Hm Hps) as (d2 & h2 & Hrun2 & Hsnap2).
  exists d2, h2. split; [exact Hrun2|].
  intros n. rewrite Hsnap2.
  pose proof (snapshot_feed h [] m ps n Hh Hm Hps) as Hsnap1.
  rewrite !app_nil_r in Hsnap1. exact Hsnap1.
Qed.

(** C9. The feed depends on a post through its [url], its front-matter
    [title] and its front-matter [publishedAt] only: two stores whose
    posts agree on these three, whatever else they hold (image,
    category, layout, body), give descriptors that no reader can tell
    apart. *)
Theorem feed_ignores_other_fields h1 m1 ps1 h2 m2 ps2 :
  closed h1 = true -> loaded_module h1 m1 = true ->
  array_elems h1 (posts m1) = Some ps1 ->
  closed h2 = true -> loaded_module h2 m2 = true ->
  array_elems h2 (posts m2) = Some ps2 ->
  same_in h1 (value_of (read_prop h1 (import_meta_env m1) "SITE"))
          h2 (value_of (read_prop h2 (import_meta_env m2) "SITE")) ->
  Forall2 (fun post1 post2 => agree h1 post1 h2 post2) ps1 ps2 ->
  exists d1 h1' d2 h2',
    passes_to_rss m1 h1 d1 h1' /\
    passes_to_rss m2 h2 d2 h2' /\
    same_in h1' d1 h2' d2.
Proof.
  intros Hh1 Hm1 Hps1 Hh2 Hm2 Hps2 Hsite Hagree.
  destruct (get_snapshot h1 [] m1 ps1 Hh1 Hm1 Hps1) as (d1 & h1' & Hrun1 & Hsnap1).
  destruct (get_snapshot h2 [] m2 ps2 Hh2 Hm2 Hps2) as (d2 & h2' & Hrun2 & Hsnap2).
  rewrite app_nil_r in Hrun1, Hrun2.
  exists d1, h1', d2, h2'. repeat split; try assumption.
  intros n. rewrite Hsnap1, Hsnap2.
  apply feed_tree_agree; assumption.
Qed.

(** ** When the store is read *)

(** C6, as the code has it.  The content store is read once, when the
    module is evaluated; every later invocation of [get], after
    whatever has been allocated in between, builds the feed from the
    module-level [posts] of that evaluation.  The feed reflects the
    files that were present then. *)
Theorem feed_reflects_store_at_load h files env :
  NoDup (List.map fst files) ->
  is_object h env = true ->
  loaded_store h files = true ->
  exists m h0,
    module_init files env h = (Normal m, h0) /\
    forall ext, feed_reflects files m (h0 ++ ext).
Proof.
  intros Hnd Henv Hfiles.
  exists (scope_at h env), (loaded_at h files).
  split; [apply module_init_runs, Hnd|].
  intros ext. apply (boot_feed h files env ext Hnd Henv Hfiles).
Qed.

(** C6, as stated, fails.  The module is evaluated while the store
    holds one post; a second post is added before the request.  The
    feed of that request does not reflect the two files. *)
Lemma feed_misses_file_added_after_load :
  exists m h0,
    module_init [("esbuild-on-the-edge.md", VRef 4)] Blog.env Blog.modules =
      (Normal m, h0) /\
    ~ feed_reflects Blog.files m h0.
Proof.
  eexists _, _. split; [reflexivity|].
  intros (d & h' & items & Hrun & Hitems & Hall).
  specialize (Hrun ret). vm_compute in Hrun.
  injection Hrun as <- <-.
  vm_compute in Hitems. injection Hitems as <-.
  apply Forall2_length in Hall. discriminate Hall.
Qed.

(** ** The theorems at work on the blog *)

Lemma get_item_copies_post_fields_witness :
  exists d h' items item,
    passes_to_rss Blog.scope Blog.loaded d h' /\
    feed_items h' d = Some items /\
    items !! 1 = Some item /\
    read_prop h' item "link" = Normal (VStr "/blog/esbuild-on-the-edge") /\
    read_prop h' item "title" = Normal (VStr "Running Esbuild on the Edge") /\
    read_prop h' item "pubDate" = Normal (VStr "2022-11-17T00:00:00.000Z").
Proof.
  destruct (get_item_copies_post_fields Blog.loaded Blog.scope
              [VRef 2; VRef 4] 1 (VRef 4) eq_refl eq_refl eq_refl)
    as (d & h' & items & item & url & title & publishedAt &
        Hrun & Hitems & Hitem & Hurl & Htitle & Hdate & Hl & Ht & Hp).
  vm_compute in Hurl, Htitle, Hdate.
  injection Hurl as <-. injection Htitle as <-. injection Hdate as <-.
  exists d, h', items, item. auto 10.
Defined.

Lemma feed_has_one_item_per_file_witness :
  exists m h0 d h' items,
    module_init Blog.files Blog.env Blog.modules = (Normal m, h0) /\
    passes_to_rss m h0 d h' /\
    feed_items h' d = Some items /\
    length items = 2.
Proof.
  apply (feed_has_one_item_per_file Blog.modules Blog.files Blog.env).
  - apply (bool_decide_unpack _). vm_compute. exact I.
  - reflexivity.
  - reflexivity.
Defined.

Lemma get_channel_fields_witness :
  exists d h',
    passes_to_rss Blog.scope Blog.loaded d h' /\
    read_prop h' d "title" = Normal (VStr "Interactions.Rest Blog") /\
    read_prop h' d "description" =
      Normal (VStr "A blog about Workers and web development") /\
    read_prop h' d "site" = Normal (VStr "https://blog.interactions.rest").
Proof.
  destruct (get_channel_fields Blog.loaded Blog.scope eq_refl)
    as (d & h' & site & Hrun & Hsite & Ht & Hd & Hs).
  vm_compute in Hsite. injection Hsite as <-.
  exists d, h'. auto.
Defined.

Lemma feed_keeps_store_order_witness :
  exists m h0 d h' items,
    module_init Blog.files Blog.env Blog.modules = (Normal m, h0) /\
    array_elems h0 (posts m) = Some [VRef 2; VRef 4] /\
    passes_to_rss m h0 d h' /\
    feed_items h' d = Some items /\
    Forall2 (fun item f => built_from h0 (snd f) h' item) items Blog.files.
Proof.
  apply (feed_keeps_store_order Blog.modules Blog.files Blog.env).
  - apply (bool_decide_unpack _). vm_compute. exact I.
  - reflexivity.
  - reflexivity.
Defined.

Lemma get_is_deterministic_witness :
  exists d1 h1 fresh,
    passes_to_rss Blog.scope Blog.loaded d1 h1 /\
    h1 = Blog.loaded ++ fresh /\
    forall ext, exists d2 h2,
      passes_to_rss Blog.scope (Blog.loaded ++ ext) d2 h2 /\
      same_in h1 d1 h2 d2.
Proof.
  apply (get_is_deterministic Blog.loaded Blog.scope); reflexivity.
Defined.

Lemma feed_reflects_store_at_load_witness :
  exists m h0,
    module_init Blog.files Blog.env Blog.modules = (Normal m, h0) /\
    forall ext, feed_reflects Blog.files m (h0 ++ ext).
Proof.
  apply (feed_reflects_store_at_load Blog.modules Blog.files Blog.env).
  - apply (bool_decide_unpack _). vm_compute. exact I.
  - reflexivity.
  - reflexivity.
Defined.

Lemma get_missing_front_matter_field_witness :
  exists d h' items item,
    passes_to_rss Blog.scope Blog.loaded_with_untitled d h' /\
    feed_items h' d = Some items /\
    items !! 2 = Some item /\
    is_object h' item = true /\
    read_prop h' item "title" = Normal VUndefined /\
    read_prop h' item "pubDate" = Normal VUndefined.
Proof.
  destruct (get_missing_front_matter_field Blog.loaded_with_untitled Blog.scope
              [VRef 2; VRef 4; VRef 6] 2 (VRef 6) (VRef 5)
              eq_refl eq_refl eq_refl eq_refl)
    as (d & h' & items & item & Hrun & Hitems & Hitem & Hobj & Ht & Hp).
  exists d, h', items, item.
  repeat split; try assumption; [apply Ht|apply Hp]; reflexivity.
Defined.

Lemma empty_store_gives_empty_feed_witness :
  exists m h0 d h',
    module_init [] Blog.env Blog.modules = (Normal m, h0) /\
    passes_to_rss m h0 d h' /\
    feed_items h' d = Some [].
Proof.
  apply (empty_store_gives_empty_feed Blog.modules Blog.env). reflexivity.
Defined.

Lemma feed_ignores_other_fields_witness :
  exists d1 h1' d2 h2',
    passes_to_rss Blog.scope Blog.loaded d1 h1' /\
    passes_to_rss Blog.restyled_scope Blog.restyled_loaded d2 h2' /\
    same_in h1' d1 h2' d2.
Proof.
  apply (feed_ignores_other_fields
           Blog.loaded Blog.scope [VRef 2; VRef 4]
           Blog.restyled_loaded Blog.restyled_scope [VRef 0; VRef 2]);
    try reflexivity.
  - intros [|n]; reflexivity.
  - repeat constructor; intros [|n]; reflexivity.
Defined.

(** ** When the handler throws *)

Lemma read_prop_valid_normal h v k :
  valid h v = true -> nullish v = false ->
  read_prop h v k = Normal (value_of (read_prop h v k)).
Proof.
  destruct v as [| | | | |l]; try discriminate; try reflexivity.
  unfold valid. intros Hl%bool_decide_eq_true _.
  destruct (lookup_lt_is_Some_2 h l Hl) as [c Hc].
  unfold read_prop. rewrite Hc. destruct c; reflexivity.
Qed.

Lemma read_prop_nullish h v k :
  nullish v = true -> read_prop h v k = Throw TypeError.
Proof. destruct v; try discriminate; reflexivity. Qed.

Lemma mappable_inv h post :
  closed h = true -> valid h post = true -> mappable h post = true ->
  exists fm,
    nullish post = false /\
    read_prop h post "frontmatter" = Normal fm /\
    nullish fm = false /\ valid h fm = true.
Proof.
  intros Hh Hv. unfold mappable.
  destruct (read_prop h post "frontmatter") as [fm|e] eqn:Hfm; [|discriminate].
  intros Hn%negb_true_iff. exists fm. repeat split; try assumption.
  - destruct post; try reflexivity; discriminate.
  - pose proof (read_prop_valid h post "frontmatter" Hh) as Hfv.
    rewrite Hfm in Hfv. exact Hfv.
Qed.

(** A post that cannot be mapped makes the callback throw a TypeError
    before it allocates. *)
Lemma item_of_post_unmappable h ext post :
  closed h = true -> valid h post = true -> mappable h post = false ->
  item_of_post post (h ++ ext) = (Throw TypeError, h ++ ext).
Proof.
  intros Hh Hv Hbad.
  unfold item_of_post, bind, get_prop.
  rewrite !(read_prop_app h ext post _ Hv).
  destruct (nullish post) eqn:Hn.
  - rewrite (read_prop_nullish h post "url" Hn). reflexivity.
  - rewrite (read_prop_valid_normal h post "url" Hv Hn).
    rewrite (read_prop_valid_normal h post "frontmatter" Hv Hn).
    unfold mappable in Hbad.
    rewrite (read_prop_valid_normal h post "frontmatter" Hv Hn) in Hbad.
    apply negb_false_iff in Hbad.
    rewrite (read_prop_nullish (h ++ ext) _ "title" Hbad). reflexivity.
Qed.

Lemma item_of_post_mappable h ext post :
  closed h = true -> valid h post = true -> mappable h post = true ->
  item_of_post post (h ++ ext) =
    (Normal (VRef (length (h ++ ext))), (h ++ ext) ++ [item_cell h post]).
Proof.
  intros Hh Hv Hok.
  destruct (mappable_inv h post Hh Hv Hok) as (fm & Hn & Hfm & Hfn & Hfv).
  unfold item_of_post, bind, get_prop, alloc, item_cell, post_field.
  rewrite !(read_prop_app h ext post _ Hv), Hfm.
  rewrite !(read_prop_app h ext fm _ Hfv).
  rewrite (read_prop_valid_normal h post "url" Hv Hn).
  rewrite (read_prop_valid_normal h fm "title" Hfv Hfn).
  rewrite (read_prop_valid_normal h fm "publishedAt" Hfv Hfn).
  reflexivity.
Qed.

Lemma map_elems_mappable h ps : forall ext,
  closed h = true ->
  forallb (valid h) ps = true ->
  forallb (mappable h) ps = true ->
  map_elems item_of_post ps (h ++ ext) =
    (Normal (List.map VRef (seq (length (h ++ ext)) (length ps))),
     (h ++ ext) ++ List.map (item_cell h) ps).
Proof.
  induction ps as [|p ps IH]; intros ext Hh Hvs Hps.
  - simpl. unfold ret. rewrite app_nil_r. reflexivity.
  - apply andb_true_iff in Hps as [Hp Hps].
    apply andb_true_iff in Hvs as [Hv Hvs].
    cbn [map_elems]. unfold bind at 1.
    rewrite (item_of_post_mappable h ext p Hh Hv Hp).
    unfold bind at 1. rewrite <- app_assoc.
    rewrite (IH (ext ++ [item_cell h p]) Hh Hvs Hps).
    unfold ret. cbn [List.map seq length].
    rewrite !length_app. cbn [length].
    rewrite <- !app_assoc. cbn [app].
    replace (length h + (length ext + 1)) with (S (length h + length ext)) by lia.
    reflexivity.
Qed.

(** The map stops at the first post it cannot map: the items of the
    posts before it are allocated, nothing else is. *)
Lemma map_elems_stops h good bad rest ext :
  closed h = true ->
  forallb (valid h) (good ++ bad :: rest) = true ->
  forallb (mappable h) good = true ->
  mappable h bad = false ->
  map_elems item_of_post (good ++ bad :: rest) (h ++ ext) =
    (Throw TypeError, (h ++ ext) ++ List.map (item_cell h) good).
Proof.
  revert ext. induction good as [|p good IH]; intros ext Hh Hvs Hgood Hbad.
  - cbn [app map_elems List.map]. unfold bind.
    cbn [app forallb] in Hvs. apply andb_true_iff in Hvs as [Hv _].
    rewrite (item_of_post_unmappable h ext bad Hh Hv Hbad).
    rewrite app_nil_r. reflexivity.
  - cbn [app forallb] in Hvs, Hgood.
    apply andb_true_iff in Hvs as [Hv Hvs].
    apply andb_true_iff in Hgood as [Hp Hgood].
    cbn [app map_elems]. unfold bind at 1.
    rewrite (item_of_post_mappable h ext p Hh Hv Hp).
    unfold bind at 1. rewrite <- app_assoc.
    rewrite (IH (ext ++ [item_cell h p]) Hh Hvs Hgood Hbad).
    cbn [List.map]. rewrite <- !app_assoc. reflexivity.
Qed.

Lemma first_unmappable h (ps : list value) :
  forallb (mappable h) ps = false ->
  exists good bad rest,
    ps = good ++ bad :: rest /\
    forallb (mappable h) good = true /\ mappable h bad = false.
Proof.
  induction ps as [|p ps IH]; [discriminate|].
  cbn [forallb]. destruct (mappable h p) eqn:Hp.
  - intros (good & bad & rest & -> & Hgood & Hbad)%IH.
    exists (p :: good), bad, rest. cbn [forallb]. rewrite Hp. auto.
  - intros _. exists [], p, ps. auto.
Qed.

Lemma array_elems_valid h a ps :
  closed h = true -> array_elems h a = Some ps -> forallb (valid h) ps = true.
Proof.
  intros Hh. destruct a as [| | | | |l]; try discriminate.
  unfold array_elems.
  destruct (h !! l) as [[props|elems]|] eqn:Hl; try discriminate.
  intros [= <-]. apply (closed_lookup h l _ Hh Hl).
Qed.

Lemma array_map_at h ext a ps :
  array_elems h a = Some ps ->
  Array_map a item_of_post (h ++ ext) =
    bind (map_elems item_of_post ps) (fun xs => alloc (Arr xs)) (h ++ ext).
Proof.
  intros Hps. pose proof (array_elems_app h ext a ps Hps) as Hps'.
  destruct a as [| | | | |l]; try discriminate.
  unfold array_elems in Hps'. unfold Array_map.
  destruct ((h ++ ext) !! l) as [[props|elems]|]; try discriminate.
  injection Hps' as ->. reflexivity.
Qed.

Lemma get_runs_mappable (rss : value -> M value) h ext m ps :
  closed h = true ->
  valid h (import_meta_env m) = true ->
  nullish (import_meta_env m) = false ->
  array_elems h (posts m) = Some ps ->
  forallb (mappable h) ps = true ->
  get rss m (h ++ ext) =
    rss (VRef (length (h ++ ext) + length ps + 1))
        ((h ++ ext) ++ List.map (item_cell h) ps ++
         [Arr (List.map VRef (seq (length (h ++ ext)) (length ps)));
          descriptor_cell h m (VRef (length (h ++ ext) + length ps))]).
Proof.
  intros Hh Hev Hen Hps Hall.
  unfold get, bind at 1, get_prop.
  rewrite (read_prop_app h ext _ "SITE" Hev).
  rewrite (read_prop_valid_normal h _ "SITE" Hev Hen).
  unfold bind at 1. rewrite (array_map_at h ext _ ps Hps).
  unfold bind.
  rewrite (map_elems_mappable h ps ext Hh (array_elems_valid h _ ps Hh Hps) Hall).
  unfold alloc, descriptor_cell.
  rewrite !length_app, !length_map. cbn [length].
  rewrite <- !app_assoc. cbn [app].
  replace (length h + length ext + length ps + 1)
    with (length h + (length ext + (length ps + 1))) by lia.
  replace (length h + length ext + length ps)
    with (length h + (length ext + length ps)) by lia.
  reflexivity.
Qed.

Lemma get_stops (rss : value -> M value) h ext m good bad rest :
  closed h = true ->
  valid h (import_meta_env m) = true ->
  nullish (import_meta_env m) = false ->
  array_elems h (posts m) = Some (good ++ bad :: rest) ->
  forallb (mappable h) good = true ->
  mappable h bad = false ->
  get rss m (h ++ ext) =
    (Throw TypeError, (h ++ ext) ++ List.map (item_cell h) good).
Proof.
  intros Hh Hev Hen Hps Hgood Hbad.
  unfold get, bind at 1, get_prop.
  rewrite (read_prop_app h ext _ "SITE" Hev).
  rewrite (read_prop_valid_normal h _ "SITE" Hev Hen).
  unfold bind at 1. rewrite (array_map_at h ext _ _ Hps).
  unfold bind.
  rewrite (map_elems_stops h good bad rest ext Hh
             (array_elems_valid h _ _ Hh Hps) Hgood Hbad).
  reflexivity.
Qed.


(** X2. [get] reaches the serializer exactly when every post can be
    mapped: when no post, and no post's front matter, is undefined or
    null.  The front matter need not be an object, and neither [url]
    nor any front-matter field need exist. *)
Theorem get_reaches_rss_iff_mappable h m ps :
  closed h = true ->
  valid h (import_meta_env m) = true ->
  nullish (import_meta_env m) = false ->
  array_elems h (posts m) = Some ps ->
  (exists d h', passes_to_rss m h d h') <->
  forallb (mappable h) ps = true.
Proof.
  intros Hh Hev Hen Hps. split.
  - intros (d & h' & Hrun).
    destruct (forallb (mappable h) ps) eqn:Hall; [reflexivity|].
    destruct (first_unmappable h ps Hall) as (good & bad & rest & -> & Hgood & Hbad).
    specialize (Hrun ret).
    pose proof (get_stops ret h [] m good bad rest Hh Hev Hen Hps Hgood Hbad) as Hthrow.
    rewrite app_nil_r in Hthrow. rewrite Hthrow in Hrun. discriminate Hrun.
  - intros Hall. eexists _, _. intros rss.
    pose proof (get_runs_mappable rss h [] m ps Hh Hev Hen Hps Hall) as Hrun.
    rewrite !app_nil_r in Hrun. exact Hrun.
Qed.

Lemma valid_app h ext v : valid h v = true -> valid (h ++ ext) v = true.
Proof.
  destruct v as [| | | | |l]; auto.
  unfold valid. intros Hl%bool_decide_eq_true.
  apply bool_decide_eq_true. rewrite length_app. lia.
Qed.

Lemma closed_app h ext :
  closed h = true ->
  forallb (fun c => forallb (valid (h ++ ext)) (cell_values c)) ext = true ->
  closed (h ++ ext) = true.
Proof.
  unfold closed. intros Hh Hext. rewrite forallb_app, Hext, andb_true_r.
  rewrite forallb_forall in Hh. apply forallb_forall. intros c Hc.
  specialize (Hh c Hc). rewrite forallb_forall in Hh.
  apply forallb_forall. intros v Hv. apply valid_app, Hh, Hv.
Qed.

Lemma mappable_app h ext post :
  valid h post = true -> mappable (h ++ ext) post = mappable h post.
Proof.
  intros Hv. unfold mappable. rewrite (read_prop_app h ext post _ Hv). reflexivity.
Qed.

(** Module evaluation keeps the heap closed. *)
Lemma closed_loaded_at h files :
  closed h = true ->
  forallb (fun f => valid h (snd f)) files = true ->
  closed (loaded_at h files) = true.
Proof.
  intros Hh Hfiles. unfold loaded_at. apply closed_app; [exact Hh|].
  assert (Hvals : forallb (valid (h ++ [Obj (glob_props files); Arr (List.map snd files)]))
                          (List.map snd files) = true).
  { rewrite forallb_forall in Hfiles. apply forallb_forall.
    intros v ([name v'] & <- & Hin)%in_map_iff. apply valid_app, (Hfiles _ Hin). }
  assert (Hsnd : List.map snd (glob_props files) = List.map snd files)
    by (unfold glob_props; rewrite List.map_map; reflexivity).
  cbn [forallb cell_values]. rewrite Hsnd, Hvals. reflexivity.
Qed.

(** X3. Module evaluation does not look into the modules it imports: a
    content file whose module cannot be mapped is found at request
    time only.  Module evaluation succeeds, and then every request
    throws a TypeError, in whatever heap it runs. *)
Theorem unmappable_file_fails_every_request h env good name bad rest :
  closed h = true ->
  NoDup (List.map fst (good ++ (name, bad) :: rest)) ->
  valid h env = true ->
  nullish env = false ->
  forallb (fun f => valid h (snd f)) (good ++ (name, bad) :: rest) = true ->
  forallb (fun f => mappable h (snd f)) good = true ->
  mappable h bad = false ->
  exists m h0,
    module_init (good ++ (name, bad) :: rest) env h = (Normal m, h0) /\
    forall ext (rss : value -> M value), exists h',
      get rss m (h0 ++ ext) = (Throw TypeError, h').
Proof.
  intros Hh Hnd Hev Hen Hvs Hgood Hbad.
  set (files := good ++ (name, bad) :: rest) in *.
  exists (scope_at h env), (loaded_at h files).
  split; [apply module_init_runs, Hnd|].
  intros ext rss. eexists.
  apply (get_stops rss (loaded_at h files) ext (scope_at h env)
           (List.map snd good) bad (List.map snd rest)).
  - apply closed_loaded_at; assumption.
  - apply valid_app, Hev.
  - exact Hen.
  - unfold array_elems, scope_at, loaded_at. cbn [posts].
    rewrite lookup_app_r by lia.
    replace (S (length h) - length h) with 1 by lia.
    unfold files. rewrite List.map_app. reflexivity.
  - rewrite forallb_forall in Hgood. apply forallb_forall.
    intros v ([n v'] & <- & Hin)%in_map_iff.
    unfold loaded_at. rewrite mappable_app; [apply (Hgood _ Hin)|].
    rewrite forallb_forall in Hvs. apply (Hvs (n, v')).
    apply in_or_app. left. exact Hin.
  - unfold loaded_at. rewrite mappable_app; [exact Hbad|].
    rewrite forallb_forall in Hvs. apply (Hvs (name, bad)).
    apply in_or_app. right. left. reflexivity.
Qed.

(** ** Missing [url] and missing [SITE] *)

(** X4. A post whose module has no [url] is no error: its item's
    [link] reads undefined, and its [title] and [pubDate] are copied
    as for any post. *)
Theorem get_missing_url h m ps k post :
  loaded_module h m = true ->
  array_elems h (posts m) = Some ps ->
  ps !! k = Some post ->
  has_prop h post "url" = false ->
  exists d h' items item,
    passes_to_rss m h d h' /\
    feed_items h' d = Some items /\
    items !! k = Some item /\
    read_prop h' item "link" = Normal VUndefined /\
    read_prop h' item "title" = post_field h post "title" /\
    read_prop h' item "pubDate" = post_field h post "publishedAt".
Proof.
  intros Hm Hps Hk Hno.
  destruct (loaded_module_inv _ _ Hm) as (ps' & _ & Hps' & Hall).
  rewrite Hps in Hps'. injection Hps' as <-.
  pose proof (loaded_posts_lookup _ _ _ _ Hall Hk) as Hpost.
  destruct (loaded_post_inv _ _ Hpost) as (fm & Hobj & _ & _).
  exists (VRef (length h + length ps + 1)), (h ++ allocated h m ps),
    (List.map VRef (seq (length h) (length ps))), (VRef (length h + k)).
  split; [intros rss; apply get_runs; assumption|].
  split; [apply feed_items_allocated|].
  split; [eapply items_lookup, Hk|].
  unfold read_prop at 1 2 3. rewrite (allocated_item h m ps k post Hk).
  unfold item_cell. cbn.
  rewrite (read_prop_absent h post "url" Hobj Hno).
  rewrite <- !(post_field_loaded h post _ Hpost). auto.
Qed.

(** X5. An environment that defines no [SITE] is no error: the
    descriptor is built all the same and has a [site] property, whose
    value is undefined. *)
Theorem get_missing_site h m ps :
  loaded_module h m = true ->
  array_elems h (posts m) = Some ps ->
  has_prop h (import_meta_env m) "SITE" = false ->
  exists d h' items,
    passes_to_rss m h d h' /\
    has_prop h' d "site" = true /\
    read_prop h' d "site" = Normal VUndefined /\
    feed_items h' d = Some items /\
    length items = length ps.
Proof.
  intros Hm Hps Hno.
  destruct (loaded_module_inv _ _ Hm) as (ps' & Henv & Hps' & _).
  rewrite Hps in Hps'. injection Hps' as <-.
  exists (VRef (length h + length ps + 1)), (h ++ allocated h m ps),
    (List.map VRef (seq (length h) (length ps))).
  split; [intros rss; apply get_runs; assumption|].
  unfold has_prop at 1, read_prop at 1. rewrite allocated_descriptor.
  unfold descriptor_cell.
  rewrite (read_prop_absent h _ "SITE" Henv Hno).
  repeat split.
  - apply feed_items_allocated.
  - rewrite length_map, length_seq. reflexivity.
Qed.

(** ** The objects of a feed *)


(** X7. The descriptor has the four properties title, description,
    site and items, and every item the three properties link, title
    and pubDate: nothing else of a post, and no other option of the
    serializer, is passed on. *)
Theorem feed_has_no_other_property h m ps :
  loaded_module h m = true ->
  array_elems h (posts m) = Some ps ->
  exists d h' items,
    passes_to_rss m h d h' /\
    own_keys h' d = Some ["title"; "description"; "site"; "items"] /\
    feed_items h' d = Some items /\
    Forall (fun item => own_keys h' item = Some ["link"; "title"; "pubDate"]) items.
Proof.
  intros Hm Hps.
  exists (VRef (length h + length ps + 1)), (h ++ allocated h m ps),
    (List.map VRef (seq (length h) (length ps))).
  split; [intros rss; apply get_runs; assumption|].
  split; [unfold own_keys; rewrite allocated_descriptor; reflexivity|].
  split; [apply feed_items_allocated|].
  apply Forall_forall. intros v (l & -> & Hl)%list_elem_of_fmap.
  apply elem_of_seq in Hl.
  destruct (lookup_lt_is_Some_2 ps (l - length h) ltac:(lia)) as [post Hk].
  pose proof (allocated_item h m ps _ post Hk) as Hcell.
  replace (length h + (l - length h)) with l in Hcell by lia.
  unfold own_keys. rewrite Hcell. reflexivity.
Qed.

(** ** The glob object and [Object.values] *)



Lemma insert_by_index_perm p l : insert_by_index p l ≡ₚ p :: l.
Proof.
  induction l as [|q l IH]; [reflexivity|].
  cbn [insert_by_index]. destruct (fst p <? fst q)%N; [reflexivity|].
  rewrite IH. apply Permutation_swap.
Qed.

Lemma own_values_perm props : own_values props ≡ₚ List.map snd props.
Proof.
  unfold own_values. induction props as [|[k v] props IH]; [reflexivity|].
  cbn [indexed_props named_props List.filter List.map fst snd].
  destruct (array_index k) as [n|]; cbn.
  - rewrite insert_by_index_perm. cbn [List.map snd app].
    apply Permutation_skip, IH.
  - rewrite <- Permutation_middle. apply Permutation_skip, IH.
Qed.

Lemma own_values_named props :
  Forall (fun p => array_index (fst p) = None) props ->
  own_values props = List.map snd props.
Proof.
  intros Hall.
  assert (Hidx : indexed_props props = []).
  { induction Hall as [|[k v] props Hk _ IH]; [reflexivity|].
    cbn [fst] in Hk. cbn [indexed_props]. rewrite Hk. exact IH. }
  assert (Hnamed : named_props props = props).
  { unfold named_props.
    induction Hall as [|[k v] props Hk Hall IH]; [reflexivity|].
    cbn [fst] in Hk. cbn [List.filter fst]. rewrite Hk. cbn. f_equal.
    apply IH. cbn [indexed_props] in Hidx. rewrite Hk in Hidx. exact Hidx. }
  unfold own_values. rewrite Hidx, Hnamed. reflexivity.
Qed.

(** X9. [Object.values] of an object allocates a new array that holds
    each property value of the object exactly once and leaves the
    object as it was.  When no property name is an array index, the
    values come in the order in which the properties were created. *)
Theorem object_values_keeps_every_value (h : heap) l props :
  h !! l = Some (Obj props) ->
  exists vs,
    Object_values (VRef l) h = (Normal (VRef (length h)), h ++ [Arr vs]) /\
    vs ≡ₚ List.map snd props /\
    (Forall (fun p => array_index (fst p) = None) props ->
       vs = List.map snd props).
Proof.
  intros Hl. exists (own_values props).
  unfold Object_values. rewrite Hl.
  split; [reflexivity|].
  split; [apply own_values_perm|apply own_values_named].
Qed.

(** X10. [posts] is a copy of the glob object's values, not a view of
    it: once the module is evaluated, the feed no longer depends on
    [postImportResult].  Whatever is later put in the place of the glob
    object, a request still gives the feed of the files that were
    loaded. *)
Theorem feed_ignores_glob_object_after_load h files env c ext :
  NoDup (List.map fst files) ->
  is_object h env = true ->
  loaded_store h files = true ->
  exists m h0 l,
    module_init files env h = (Normal m, h0) /\
    postImportResult m = VRef l /\
    h0 !! l = Some (Obj (glob_props files)) /\
    feed_reflects files m (<[l := c]> (h0 ++ ext)).
Proof.
  intros Hnd Henv Hfiles.
  exists (scope_at h env), (loaded_at h files), (length h).
  split; [apply module_init_runs, Hnd|].
  split; [reflexivity|].
  split.
  { unfold loaded_at. rewrite lookup_app_r by lia.
    replace (length h - length h) with 0 by lia. reflexivity. }
  assert (Heq : <[length h := c]> (loaded_at h files ++ ext) =
                h ++ (c :: Arr (List.map snd files) :: ext)).
  { unfold loaded_at. rewrite <- app_assoc.
    rewrite insert_app_r_alt by lia.
    replace (length h - length h) with 0 by lia. reflexivity. }
  rewrite Heq. set (H := h ++ c :: Arr (List.map snd files) :: ext).
  assert (Hps : array_elems H (posts (scope_at h env)) = Some (List.map snd files)).
  { unfold array_elems, scope_at, H. cbn [posts].
    rewrite lookup_app_r by lia.
    replace (S (length h) - length h) with 1 by lia. reflexivity. }
  assert (Hm : loaded_module H (scope_at h env) = true).
  { unfold loaded_module. rewrite Hps. apply andb_true_iff. split.
    - apply is_object_app, Henv.
    - unfold loaded_store in Hfiles. rewrite forallb_forall in Hfiles.
      apply forallb_forall. intros p ([name v] & <- & Hin)%in_map_iff.
      apply loaded_post_app, (Hfiles _ Hin). }
  destruct (get_feed H [] _ _ Hm Hps) as (d & h' & items & Hrun & Hitems & Hall).
  rewrite app_nil_r in Hrun, Hall.
  exists d, h', items. repeat split; [exact Hrun|exact Hitems|].
  apply Forall2_flip. apply Forall2_fmap_l in Hall.
  eapply Forall2_impl; [exact Hall|]. intros f item Hb. exact Hb.
Qed.

(** ** These theorems at work on the blog *)


Lemma get_reaches_rss_iff_mappable_witness :
  (exists d h', passes_to_rss Blog.scope Blog.loaded d h') <->
  forallb (mappable Blog.loaded) [VRef 2; VRef 4] = true.
Proof.
  apply (get_reaches_rss_iff_mappable Blog.loaded Blog.scope [VRef 2; VRef 4]);
    reflexivity.
Defined.

Lemma unmappable_file_fails_every_request_witness :
  exists m h0,
    module_init Blog.files_with_readme Blog.env Blog.more = (Normal m, h0) /\
    forall ext (rss : value -> M value), exists h',
      get rss m (h0 ++ ext) = (Throw TypeError, h').
Proof.
  apply (unmappable_file_fails_every_request Blog.more Blog.env
           [("bootstrapping-d1.md", VRef 2)] "readme.md" (VRef 7)
           [("esbuild-on-the-edge.md", VRef 4)]);
    try reflexivity.
  apply (bool_decide_unpack _). vm_compute. exact I.
Defined.

Lemma get_missing_url_witness :
  exists d h' items item,
    passes_to_rss (scope_at Blog.more Blog.env)
                  (loaded_at Blog.more Blog.files_without_url) d h' /\
    feed_items h' d = Some items /\
    items !! 1 = Some item /\
    read_prop h' item "link" = Normal VUndefined /\
    read_prop h' item "title" = Normal (VStr "Running Esbuild on the Edge") /\
    read_prop h' item "pubDate" = Normal (VStr "2022-11-17T00:00:00.000Z").
Proof.
  apply (get_missing_url (loaded_at Blog.more Blog.files_without_url)
           (scope_at Blog.more Blog.env) [VRef 2; VRef 8] 1 (VRef 8));
    reflexivity.
Defined.

Lemma get_missing_site_witness :
  exists d h' items,
    passes_to_rss (scope_at Blog.more (VRef 9)) (loaded_at Blog.more Blog.files) d h' /\
    has_prop h' d "site" = true /\
    read_prop h' d "site" = Normal VUndefined /\
    feed_items h' d = Some items /\
    length items = 2.
Proof.
  apply (get_missing_site (loaded_at Blog.more Blog.files)
           (scope_at Blog.more (VRef 9)) [VRef 2; VRef 4]);
    reflexivity.
Defined.


Lemma feed_has_no_other_property_witness :
  exists d h' items,
    passes_to_rss Blog.scope Blog.loaded d h' /\
    own_keys h' d = Some ["title"; "description"; "site"; "items"] /\
    feed_items h' d = Some items /\
    Forall (fun item => own_keys h' item = Some ["link"; "title"; "pubDate"]) items.
Proof.
  apply (feed_has_no_other_property Blog.loaded Blog.scope [VRef 2; VRef 4]);
    reflexivity.
Defined.


Lemma object_values_keeps_every_value_witness :
  exists vs,
    Object_values (VRef 7) (Blog.loaded) =
      (Normal (VRef 9), Blog.loaded ++ [Arr vs]) /\
    vs ≡ₚ [VRef 2; VRef 4] /\
    (Forall (fun p => array_index (fst p) = None) (glob_props Blog.files) ->
       vs = [VRef 2; VRef 4]).
Proof.
  apply (object_values_keeps_every_value Blog.loaded 7 (glob_props Blog.files)).
  reflexivity.
Defined.

Lemma feed_ignores_glob_object_after_load_witness :
  exists m h0 l,
    module_init Blog.files Blog.env Blog.modules = (Normal m, h0) /\
    postImportResult m = VRef l /\
    h0 !! l = Some (Obj (glob_props Blog.files)) /\
    feed_reflects Blog.files m (<[l := Obj []]> (h0 ++ [])).
Proof.
  apply (feed_ignores_glob_object_after_load Blog.modules Blog.files Blog.env
           (Obj []) []).
  - apply (bool_decide_unpack _). vm_compute. exact I.
  - reflexivity.
  - reflexivity.
Defined.
